(** * config_profile.Config: layered configuration lookup

    A shallow embedding of [src/config_profile/Config.py] and the
    properties of its key resolution: environment first, then the merged
    settings mapping, then the caller's default.

    Python strings are modelled as sequences of 8-bit characters; [lower]
    and [upper] act on the ASCII letters and leave every other character
    alone.  Python exceptions are values of [exn]; a computation that may
    raise returns a [result].  The numeric accessors ([get_int],
    [get_int_required], [get_float]) go through the builtins [int] and
    [float]; [int] is modelled in full, and of [float] the parts that
    parse a string and round an integer are parameters. *)

From Stdlib Require Import ZArith Floats Ascii String.
From stdpp Require Import gmap strings list pretty.

Local Open Scope string_scope.
Local Set Warnings "-register-all".

(** ** Python values, exceptions and string methods *)

Module Py.

(** The exception classes the module can raise or let through.
    [OtherError] stands for any class not named here (a decoder error
    of the settings parser, a permission error, ...). *)
Inductive exn : Type :=
| TypeError
| NameError (name : string)
| AttributeError
| FileNotFoundError
| RequiredConfigKeyException (msg : string)
| OtherError (cls : string).

Inductive result (A : Type) : Type :=
| Ok (a : A)
| Raise (e : exn).
Arguments Ok {A} a.
Arguments Raise {A} e.

#[export] Instance result_ret : MRet result := λ A a, Ok a.
#[export] Instance result_bind : MBind result := λ A B f m,
  match m with
  | Ok a => f a
  | Raise e => Raise e
  end.

(** The values a settings file or a lookup can yield: [None], a string,
    a boolean, an integer or a float. *)
Inductive value : Type :=
| VNone
| VStr (s : string)
| VBool (b : bool)
| VInt (n : Z)
| VFloat (f : float).

(** [bool(v)]: Python's truth value. *)
Definition truthy (v : value) : bool :=
  match v with
  | VNone => false
  | VStr s => negb (String.eqb s "")
  | VBool b => b
  | VInt n => negb (Z.eqb n 0)
  | VFloat f => negb (PrimFloat.eqb f 0%float)
  end.

(** [bool(s)] for an [Optional[str]]. *)
Definition truthy_str (v : option string) : bool :=
  match v with
  | Some s => negb (String.eqb s "")
  | None => false
  end.

(** [isinstance(v, bool)] *)
Definition isinstance_bool (v : value) : bool :=
  match v with
  | VBool _ => true
  | _ => false
  end.

(** [v is None] *)
Definition is_None (v : value) : bool :=
  match v with
  | VNone => true
  | _ => false
  end.

Definition of_optional_str (o : option string) : value :=
  match o with
  | Some s => VStr s
  | None => VNone
  end.

Definition in_range (lo hi : nat) (c : ascii) : bool :=
  let n := nat_of_ascii c in (lo <=? n)%nat && (n <=? hi)%nat.

Definition char_lower (c : ascii) : ascii :=
  if in_range 65 90 c then ascii_of_nat (nat_of_ascii c + 32) else c.

Definition char_upper (c : ascii) : ascii :=
  if in_range 97 122 c then ascii_of_nat (nat_of_ascii c - 32) else c.

Fixpoint str_map (f : ascii → ascii) (s : string) : string :=
  match s with
  | EmptyString => EmptyString
  | String c s' => String (f c) (str_map f s')
  end.

(** [s.lower()] and [s.upper()] *)
Definition lower (s : string) : string := str_map char_lower s.
Definition upper (s : string) : string := str_map char_upper s.

(** [s.replace(old, new)] for a one-character [old] and [new], the only
    use the module makes of it. *)
Definition replace (old new : ascii) (s : string) : string :=
  str_map (λ c, if Ascii.eqb c old then new else c) s.

(** [s.startswith(p)] *)
Definition startswith (s p : string) : bool := String.prefix p s.

(** [s[1:]] *)
Definition tail (s : string) : string :=
  match s with
  | EmptyString => EmptyString
  | String _ s' => s'
  end.

(** [sub in s] on strings: substring test. *)
Fixpoint contains (sub s : string) : bool :=
  String.prefix sub s ||
  match s with
  | EmptyString => false
  | String _ s' => contains sub s'
  end.

(** [x in [a, b, ...]] on a list of strings. *)
Definition in_list (x : string) (l : list string) : bool :=
  existsb (String.eqb x) l.

(** [v.lower()]: only [str] has the attribute. *)
Definition method_lower (v : value) : result string :=
  match v with
  | VStr s => Ok (lower s)
  | _ => Raise AttributeError
  end.

End Py.
Import Py.

(** ** The module's name space

    [build_path] is a module-level function: a free name in its body is
    looked up among the module's globals (and then the builtins, which do
    not bind [cls]). *)

Inductive pyobj : Type :=
| ObjModule (name : string)
| ObjClass (name : string)
| ObjFunction (name : string)
| ObjLogger (name : string).

Definition module_globals : list (string * pyobj) :=
  [ ("logging", ObjModule "logging");
    ("os", ObjModule "os");
    ("Optional", ObjClass "Optional");
    ("DictUtil", ObjClass "DictUtil");
    ("FileUtil", ObjClass "FileUtil");
    ("singleton", ObjFunction "singleton");
    ("Settings", ObjClass "Settings");
    ("logger", ObjLogger "config_profile.Config");
    ("RequiredConfigKeyException", ObjClass "RequiredConfigKeyException");
    ("build_path", ObjFunction "build_path");
    ("Config", ObjClass "Config") ].

Fixpoint assoc (name : string) (l : list (string * pyobj)) : option pyobj :=
  match l with
  | [] => None
  | (n, o) :: l' => if String.eqb n name then Some o else assoc name l'
  end.

Definition load_global (name : string) : result pyobj :=
  match assoc name module_globals with
  | Some o => Ok o
  | None => Raise (NameError name)
  end.

(** [o.root_folder]: none of the objects bound at module level defines
    the attribute. *)
Definition attr_root_folder (o : pyobj) : result string :=
  Raise AttributeError.

(** ** External collaborators

    The settings parser, the key flattener and [os.path] come from other
    packages; the module is parametric in them.  [load_toml_to_dict]
    also stands for the state of the file system: it raises
    [FileNotFoundError] for a path with no file. *)

Class Externals : Type := {
  nested : Type;
  os_path_normpath : string → string;
  os_path_join : string → string → string;
  os_path_abspath : string → string;
  load_toml_to_dict : string → result nested;
  flatten_dict : nested → string → list (string * value);
}.

(** ** The Config object and the effects of its methods *)

Record Config : Type := mkConfig {
  _config : gmap string value;
}.

Inductive event : Type :=
| Print (msg : string)
| LogInfo (msg : string)
| LogWarning (msg : string).

(** What a method can change: the instance and what was printed or
    logged so far (most recent last). *)
Record store : Type := mkStore {
  obj : Config;
  trace : list event;
}.

Definition M (A : Type) : Type := store → result A * store.

#[export] Instance M_ret : MRet M := λ A a st, (Ok a, st).
#[export] Instance M_bind : MBind M := λ A B f m st,
  match m st with
  | (Ok a, st') => f a st'
  | (Raise e, st') => (Raise e, st')
  end.

Definition lift {A : Type} (r : result A) : M A := λ st, (r, st).

Definition emit (e : event) : M unit :=
  λ st, (Ok tt, mkStore (obj st) (trace st ++ [e])).

(** [self._config = m] *)
Definition set_config (m : gmap string value) : M unit :=
  λ st, (Ok tt, mkStore (mkConfig m) (trace st)).

(** [self._config[k] = v] *)
Definition config_setitem (k : string) (v : value) : M unit :=
  λ st, (Ok tt, mkStore (mkConfig (<[k := v]> (_config (obj st)))) (trace st)).

(** [try: body except cls: handler], the handler chosen by [handles]. *)
Definition try_except {A : Type} (body : M A) (handles : exn → bool)
    (handler : M A) : M A :=
  λ st,
    match body st with
    | (Ok a, st') => (Ok a, st')
    | (Raise e, st') => if handles e then handler st' else (Raise e, st')
    end.

Fixpoint for_each {A : Type} (l : list A) (body : A → M unit) : M unit :=
  match l with
  | [] => mret tt
  | x :: l' => body x ;; for_each l' body
  end.

(** Read-only use of the instance by a method. *)
Definition with_self {A : Type} (f : Config → A) : M A :=
  λ st, (Ok (f (obj st)), st).

Definition is_FileNotFoundError (e : exn) : bool :=
  match e with
  | FileNotFoundError => true
  | _ => false
  end.

(** ** [build_path] (module level) *)

Definition build_path {ext : Externals} (filename rootdir : string) : result string :=
  let normalized := os_path_normpath filename in
  let normalized :=
    if negb (startswith normalized rootdir) then
      if startswith normalized "/" || startswith normalized "\" then
        tail normalized
      else normalized
    else normalized in
  cls ← load_global "cls";
  root_folder ← attr_root_folder cls;
  mret (os_path_abspath (os_path_join root_folder normalized)).

(** ** The methods of [Config] that read the environment

    [os.environ] maps variable names to strings; it is read afresh by
    every call and never written. *)

(** [Config.get_env_value(key, default)] (a class method: no instance) *)
Definition get_env_value (environ : gmap string string) (key : string)
    (default : option string) : option string :=
  let v := environ !! key in
  if truthy_str v then v
  else
    let v := environ !! replace "." "_" (upper key) in
    if truthy_str v then v
    else default.

(** [self.get_profile()] *)
Definition get_profile (self : Config) (environ : gmap string string) : string :=
  let profile := get_env_value environ "application.profile" None in
  match profile with
  | Some p => if truthy_str profile then lower p else "local"
  | None => "local"
  end.

(** [self.get_dataset_name(base_name)] *)
Definition get_dataset_name (self : Config) (environ : gmap string string)
    (base_name : string) : string :=
  let profile := get_profile self environ in
  if in_list profile ["prod"; "staging"; "ci"] then base_name
  else if in_list profile ["local"] then base_name +:+ "_qa"
  else base_name +:+ "_" +:+ profile.

(** [self._config.get(key)] *)
Definition dict_get (m : gmap string value) (key : string) : value :=
  default VNone (m !! key).

(** [self.get(key, default)] *)
Definition get (self : Config) (environ : gmap string string) (key : string)
    (default : value) : value :=
  let v := of_optional_str (get_env_value environ key None) in
  if truthy v then v
  else
    let v := dict_get (_config self) key in
    if truthy v then v
    else default.

(** [self.get_required(key)] *)
Definition get_required (self : Config) (environ : gmap string string)
    (key : string) : result value :=
  let v := get self environ key VNone in
  if is_None v then
    Raise (RequiredConfigKeyException
             ("Required key [" +:+ key +:+ "] not found in config"))
  else Ok v.

(** [self.get_boolean(key, default)] *)
Definition get_boolean (self : Config) (environ : gmap string string)
    (key : string) (default : value) : result value :=
  let v := get self environ key VNone in
  if isinstance_bool v then Ok v
  else if truthy v then
    l ← method_lower v;
    mret (VBool (String.eqb l "true"))
  else Ok default.

(** [self.get_boolean_required(key)] *)
Definition get_boolean_required (self : Config) (environ : gmap string string)
    (key : string) : result value :=
  v ← get_required self environ key;
  l ← method_lower v;
  mret (VBool (String.eqb l "true")).

(** [self.is_enabled(key)] *)
Definition is_enabled (self : Config) (environ : gmap string string)
    (key : string) : result value :=
  get_boolean self environ key (VBool false).

(** [self.has_feature(feature_name)] *)
Definition has_feature (self : Config) (environ : gmap string string)
    (feature_name : string) : result value :=
  is_enabled self environ ("feature." +:+ feature_name +:+ ".enabled").

(** ** Population of the mapping and construction *)

(** The loop of [_populate_with_values_from_yml]:
    [for k, v in items: self._config[k.lower()] = v]. *)
Definition merge_items (items : list (string * value)) : M unit :=
  for_each items (λ kv, config_setitem (lower kv.1) kv.2).

(** The [try] statement of [_populate_with_values_from_yml], lines 65-76,
    once [config_fullpath] is known. *)
Definition populate_try {ext : Externals} (config_file config_fullpath : string) : M unit :=
  try_except
    (values ← lift (load_toml_to_dict config_fullpath);
     emit (Print ("Populating config with " +:+ config_fullpath));;
     emit (LogInfo ("Populating config with " +:+ config_fullpath));;
     merge_items (flatten_dict values "."))
    is_FileNotFoundError
    (if negb (contains "application-local.yml" config_file) then
       emit (Print ("Config file not found: " +:+ config_fullpath));;
       emit (LogWarning ("Config file not found: " +:+ config_fullpath))
     else mret tt).

(** [self._populate_with_values_from_yml(...)].  The method has two
    required positional parameters besides [self], [config_file] and
    [rootdir], and no defaults: a call with any other number of
    arguments raises [TypeError] before the body runs. *)
Definition _populate_with_values_from_yml {ext : Externals} (args : list string) : M unit :=
  match args with
  | [config_file; rootdir] =>
      config_fullpath ← lift (build_path config_file rootdir);
      populate_try config_file config_fullpath
  | _ => lift (Raise TypeError)
  end.

(** [Config.__init__]: it takes any positional and keyword arguments
    and uses none of them. *)
Definition __init__ {ext : Externals} (environ : gmap string string)
    (args : list value) (kwargs : list (string * value)) : M unit :=
  set_config ∅;;
  _populate_with_values_from_yml ["resources/application.yml"];;
  profile ← with_self (λ self, get_profile self environ);
  _populate_with_values_from_yml ["resources/application-" +:+ profile +:+ ".yml"].

(** A new instance before [__init__] runs, with nothing printed yet. *)
Definition fresh : store := mkStore (mkConfig ∅) [].

(** [Config(...)]: the instance when [__init__] returns, the
    exception when it raises, and what was printed and logged meanwhile.
    ([singleton] hands the arguments of the first call to the class.) *)
Definition Config_new {ext : Externals} (environ : gmap string string)
    (args : list value) (kwargs : list (string * value))
    : result Config * list event :=
  match __init__ environ args kwargs fresh with
  | (Ok _, st) => (Ok (obj st), trace st)
  | (Raise e, st) => (Raise e, trace st)
  end.

(** ** The builtins [int] and [float]

    [ValueError] and [OverflowError] are among the classes [OtherError]
    stands for. *)

Definition ValueError : exn := OtherError "ValueError".
Definition OverflowError : exn := OtherError "OverflowError".

(** [c.isspace()] for an 8-bit character: tab to carriage return, the
    four separators 28 to 31, the space, NEL (133) and the no-break
    space (160). *)
Definition is_space (c : ascii) : bool :=
  in_range 9 13 c || in_range 28 32 c ||
  (nat_of_ascii c =? 133)%nat || (nat_of_ascii c =? 160)%nat.

Definition is_digit (c : ascii) : bool := in_range 48 57 c.

Definition digit_value (c : ascii) : Z := Z.of_nat (nat_of_ascii c - 48).

Fixpoint lstrip (s : string) : string :=
  match s with
  | EmptyString => EmptyString
  | String c s' => if is_space c then lstrip s' else s
  end.

Fixpoint all_space (s : string) : bool :=
  match s with
  | EmptyString => true
  | String c s' => is_space c && all_space s'
  end.

(** The digits of a decimal literal, most significant first: at least
    one digit, single underscores between digits only, and nothing but
    white space after the last digit.  [acc] is the value read so far,
    [n] the number of digits read, [prev] whether the previous character
    was a digit.  The result is the value and the number of digits. *)
Fixpoint int_digits (acc : Z) (n : nat) (prev : bool) (s : string)
    : option (Z * nat) :=
  match s with
  | EmptyString => if prev then Some (acc, n) else None
  | String c s' =>
      if is_digit c then int_digits (10 * acc + digit_value c) (S n) true s'
      else if Ascii.eqb c "_" then
        if prev then int_digits acc n false s' else None
      else if is_space c then
        if prev && all_space s' then Some (acc, n) else None
      else None
  end.

(** Whether a literal of [n] digits exceeds the interpreter's limit
    [max_str_digits] (0: no limit; 4300 by default where the limit
    exists).  Literals of up to 640 digits are never checked. *)
Definition over_digit_limit (max_str_digits n : nat) : bool :=
  (640 <? n)%nat && (0 <? max_str_digits)%nat && (max_str_digits <? n)%nat.

(** [int(s)] for a string, in base ten: white space, an optional sign,
    the digits, white space. *)
Definition int_of_str (max_str_digits : nat) (s : string) : result Z :=
  let s := lstrip s in
  let '(negative, body) :=
    match s with
    | String "+" r => (false, r)
    | String "-" r => (true, r)
    | _ => (false, s)
    end in
  match int_digits 0 0 false body with
  | Some (z, n) =>
      if over_digit_limit max_str_digits n
      then Raise ValueError
      else Ok (if negative then (- z)%Z else z)
  | None => Raise ValueError
  end.

(** [int(f)] for a float: truncation towards zero; infinities overflow
    and NaN is a value error. *)
Definition int_of_float (f : float) : result Z :=
  match Prim2SF f with
  | S754_zero _ => Ok 0%Z
  | S754_infinity _ => Raise OverflowError
  | S754_nan => Raise ValueError
  | S754_finite negative m e =>
      let magnitude := Z.shiftl (Z.pos m) e in
      Ok (if negative then (- magnitude)%Z else magnitude)
  end.

(** What the running interpreter fixes: the digit limit of [int], and
    the two conversions of [float] that round. *)
Class Builtins : Type := {
  int_max_str_digits : nat;
  float_of_str : string → result float;
  float_of_int : Z → result float;
}.

(** [int(v)] *)
Definition py_int {py : Builtins} (v : value) : result value :=
  match v with
  | VNone => Raise TypeError
  | VStr s => z ← int_of_str int_max_str_digits s; mret (VInt z)
  | VBool b => Ok (VInt (if b then 1 else 0))
  | VInt n => Ok (VInt n)
  | VFloat f => z ← int_of_float f; mret (VInt z)
  end.

(** [float(v)] *)
Definition py_float {py : Builtins} (v : value) : result value :=
  match v with
  | VNone => Raise TypeError
  | VStr s => f ← float_of_str s; mret (VFloat f)
  | VBool b => Ok (VFloat (if b then 1 else 0)%float)
  | VInt n => f ← float_of_int n; mret (VFloat f)
  | VFloat f => Ok (VFloat f)
  end.

(** ** The numeric accessors *)

(** [self.get_int(key, default)] *)
Definition get_int {py : Builtins} (self : Config)
    (environ : gmap string string) (key : string) (default : value)
    : result value :=
  let v := get self environ key VNone in
  if truthy v then py_int v
  else Ok default.

(** [self.get_int_required(key)] *)
Definition get_int_required {py : Builtins} (self : Config)
    (environ : gmap string string) (key : string) : result value :=
  v ← get_required self environ key;
  py_int v.

(** [self.get_float(key, default)] *)
Definition get_float {py : Builtins} (self : Config)
    (environ : gmap string string) (key : string) (default : value)
    : result value :=
  let v := get self environ key VNone in
  if truthy v then py_float v
  else Ok default.

(** An interpreter for examples: the default digit limit, and a [float]
    that knows no string and no integer. *)
Definition plain_builtins : Builtins := {|
  int_max_str_digits := 4300;
  float_of_str := λ _, Raise ValueError;
  float_of_int := λ _, Raise OverflowError;
|}.

(** Some character of [s] satisfies [p]. *)
Fixpoint any_char (p : ascii → bool) (s : string) : bool :=
  match s with
  | EmptyString => false
  | String c s' => p c || any_char p s'
  end.

(** The characters a decimal literal can be made of. *)
Definition int_char (c : ascii) : bool :=
  is_digit c || is_space c || Ascii.eqb c "+" || Ascii.eqb c "-" ||
  Ascii.eqb c "_".

(** The name of the variable that stands in for [key] where a dot cannot
    be part of a name. *)
Definition env_alias (key : string) : string := replace "." "_" (upper key).

(** ** Vocabulary of the statements *)

(** The variable [name] is set to the non-empty string [v]. *)
Definition set_to (environ : gmap string string) (name v : string) : Prop :=
  environ !! name = Some v ∧ v ≠ "".

(** The variable [name] is unset, or set to the empty string. *)
Definition blank (environ : gmap string string) (name : string) : Prop :=
  environ !! name = None ∨ environ !! name = Some "".

(** Every key of the mapping is its own lower-case form. *)
Definition keys_lower (m : gmap string value) : Prop :=
  ∀ k, is_Some (m !! k) → k = lower k.

(** The mapping of the instance held by a store. *)
Definition mapping (st : store) : gmap string value := _config (obj st).

(** ** A concrete file system and parser, for examples *)

(** Modelled from the spec: the parsed form of a settings file (the
    parser is [pyprofile.FileUtil], outside the repository), a nested
    mapping whose leaves are strings, booleans and numbers. *)
Inductive tree : Type :=
| Leaf (v : value)
| Node (children : list (string * tree)).

(** Modelled from the spec: the key flattener ([pyprofile.DictUtil],
    outside the repository), which turns a nested mapping into a flat one
    whose keys are the paths of the nested keys joined by [sep]. *)
Fixpoint flatten_tree (sep : string) (path : option string) (t : tree)
    : list (string * value) :=
  match t with
  | Leaf v => [(default "" path, v)]
  | Node children =>
      (fix go (l : list (string * tree)) : list (string * value) :=
         match l with
         | [] => []
         | (k, c) :: l' =>
             (flatten_tree sep
                (Some (match path with
                       | Some p => p +:+ sep +:+ k
                       | None => k
                       end)) c ++ go l')%list
         end) children
  end.

Fixpoint find_file (path : string) (files : list (string * result tree))
    : result tree :=
  match files with
  | [] => Raise FileNotFoundError
  | (p, r) :: files' => if String.eqb p path then r else find_file path files'
  end.

(** Collaborators over a file system given as a list of paths with what
    parsing each yields; paths are kept as they are. *)
Definition over_files (files : list (string * result tree)) : Externals := {|
  nested := tree;
  os_path_normpath := λ p, p;
  os_path_join := λ a b, a +:+ "/" +:+ b;
  os_path_abspath := λ p, p;
  load_toml_to_dict := λ p, find_file p files;
  flatten_dict := λ t sep, flatten_tree sep None t;
|}.

(** The two files of the repository's test fixtures. *)
Definition test_resources : list (string * result tree) :=
  [ ("/repo/tests/fixtures/resources/application.yml",
     Ok (Node [("top_level_key",
                Node [("some_sub_key", Leaf (VStr "a value"));
                      ("key_to_be_overwritten", Leaf (VStr "original"))])]));
    ("/repo/tests/fixtures/resources/application-test.yml",
     Ok (Node [("top_level_key",
                Node [("key_to_be_overwritten",
                       Leaf (VStr "I have been overwritten"))])])) ].

(** The mapping a store holds after the loop over [items]. *)
Definition merged (items : list (string * value)) (m : gmap string value)
    : gmap string value :=
  foldl (λ acc kv, <[lower kv.1 := kv.2]> acc) m items.

(** * Properties *)

(** Case analysis on a hypothesis that lists alternatives. *)
Ltac split_alts :=
  intros;
  repeat match goal with
         | H : _ ∨ _ |- _ => destruct H
         | H : ∃ _, _ |- _ => destruct H
         | H : _ ∧ _ |- _ => destruct H
         end;
  simplify_eq; auto.

(** ** Truth values *)

Lemma truthy_str_spec (o : option string) :
  truthy_str o = true ↔ ∃ s, o = Some s ∧ s ≠ "".
Proof.
  destruct o as [s|]; simpl.
  - rewrite negb_true_iff. split.
    + intros E. exists s. split; [done|]. by apply String.eqb_neq.
    + intros (s' & [= <-] & Hne). by apply String.eqb_neq.
  - split; [done|]. by intros (? & ? & _).
Qed.

Lemma truthy_str_set (environ : gmap string string) (name v : string) :
  set_to environ name v → truthy_str (environ !! name) = true.
Proof. intros [E Hne]. apply truthy_str_spec. eauto. Qed.

Lemma truthy_str_blank (environ : gmap string string) (name : string) :
  blank environ name ↔ truthy_str (environ !! name) = false.
Proof.
  unfold blank. destruct (environ !! name) as [s|] eqn:E; simpl.
  - rewrite negb_false_iff, String.eqb_eq. split.
    + by intros [?|[= ->]].
    + intros ->. by right.
  - split; [done|]. by left.
Qed.

Lemma truthy_of_optional_str (o : option string) :
  truthy (of_optional_str o) = truthy_str o.
Proof. by destruct o. Qed.

(** The values Python counts as false. *)
Lemma truthy_false_iff (v : value) :
  truthy v = false ↔
  v = VNone ∨ v = VStr "" ∨ v = VBool false ∨ v = VInt 0 ∨
  ∃ f, v = VFloat f ∧ PrimFloat.eqb f 0%float = true.
Proof.
  destruct v as [|s|b|n|f]; simpl;
    rewrite ?negb_false_iff, ?String.eqb_eq, ?Z.eqb_eq;
    (split; [intros E; subst; eauto 8 | split_alts]).
Qed.

Lemma in_list_spec (x : string) (l : list string) :
  in_list x l = true ↔ x ∈ l.
Proof.
  unfold in_list. rewrite existsb_exists, list_elem_of_In. split.
  - intros (y & Hy & E). apply String.eqb_eq in E. by subst.
  - intros Hx. exists x. split; [done|]. apply String.eqb_refl.
Qed.

Lemma in_list_false (x : string) (l : list string) :
  x ∉ l → in_list x l = false.
Proof.
  intros Hx. destruct (in_list x l) eqn:E; [|done].
  by apply in_list_spec in E.
Qed.

(** ** Environment lookup *)

Lemma get_env_value_literal (environ : gmap string string) (key : string)
    (default : option string) :
  truthy_str (environ !! key) = true →
  get_env_value environ key default = environ !! key.
Proof. unfold get_env_value. by intros ->. Qed.

Lemma get_env_value_alias (environ : gmap string string) (key : string)
    (default : option string) :
  truthy_str (environ !! key) = false →
  truthy_str (environ !! replace "." "_" (upper key)) = true →
  get_env_value environ key default = environ !! replace "." "_" (upper key).
Proof. unfold get_env_value. by intros -> ->. Qed.

Lemma get_env_value_default (environ : gmap string string) (key : string)
    (default : option string) :
  truthy_str (environ !! key) = false →
  truthy_str (environ !! replace "." "_" (upper key)) = false →
  get_env_value environ key default = default.
Proof. unfold get_env_value. by intros -> ->. Qed.

(** Without a default, the lookup yields nothing or a non-empty string. *)
Lemma get_env_value_None_cases (environ : gmap string string) (key : string) :
  get_env_value environ key None = None ∨
  ∃ e, get_env_value environ key None = Some e ∧ e ≠ "".
Proof.
  unfold get_env_value.
  destruct (truthy_str (environ !! key)) eqn:E1.
  { right. by apply truthy_str_spec. }
  destruct (truthy_str (environ !! replace "." "_" (upper key))) eqn:E2.
  { right. by apply truthy_str_spec. }
  by left.
Qed.

(** C7: [get_env_value(key, default)] returns the variable named [key]
    when it is set and non-empty; otherwise the variable named by the
    upper-cased key with every dot replaced by an underscore when that is
    set and non-empty; otherwise [default]. *)
Theorem get_env_value_order (environ : gmap string string) (key : string)
    (default : option string) :
  (∀ v, set_to environ key v →
        get_env_value environ key default = Some v) ∧
  (∀ v, blank environ key →
        set_to environ (replace "." "_" (upper key)) v →
        get_env_value environ key default = Some v) ∧
  (blank environ key →
   blank environ (replace "." "_" (upper key)) →
   get_env_value environ key default = default).
Proof.
  split; [|split].
  - intros v Hv. rewrite get_env_value_literal by by eapply truthy_str_set.
    apply Hv.
  - intros v Hb Hv. apply truthy_str_blank in Hb.
    rewrite get_env_value_alias by (done || by eapply truthy_str_set).
    apply Hv.
  - intros Hb1 Hb2. apply truthy_str_blank in Hb1, Hb2.
    by apply get_env_value_default.
Qed.

(** The three cases on concrete environments: the literal name wins over
    the alias, [A_B_C] answers for [a.b.c], and the default is returned
    when neither is set. *)
Lemma get_env_value_order_witness :
  get_env_value {[ "a.b.c" := "lit"; "A_B_C" := "alias" ]} "a.b.c" None
    = Some "lit" ∧
  get_env_value {[ "A_B_C" := "alias" ]} "a.b.c" None = Some "alias" ∧
  get_env_value {[ "a.b.c" := "" ]} "a.b.c" (Some "dflt") = Some "dflt".
Proof.
  split; [|split].
  - apply (proj1 (get_env_value_order _ "a.b.c" None)).
    split; [reflexivity | discriminate].
  - apply (proj1 (proj2 (get_env_value_order _ "a.b.c" None))).
    + left. reflexivity.
    + split; [reflexivity | discriminate].
  - apply (proj2 (proj2 (get_env_value_order _ "a.b.c" (Some "dflt")))).
    + right. reflexivity.
    + left. reflexivity.
Defined.

(** ** [get]: the environment comes first *)

Lemma get_env_hit (self : Config) (environ : gmap string string)
    (key : string) (default : value) (e : string) :
  get_env_value environ key None = Some e → e ≠ "" →
  get self environ key default = VStr e.
Proof.
  intros E Hne. unfold get. rewrite truthy_of_optional_str, E.
  replace (truthy_str (Some e)) with true; [done|].
  symmetry. apply truthy_str_spec. eauto.
Qed.

Lemma get_env_miss (self : Config) (environ : gmap string string)
    (key : string) (default : value) :
  get_env_value environ key None = None →
  get self environ key default =
    if truthy (dict_get (_config self) key)
    then dict_get (_config self) key else default.
Proof. intros E. unfold get. by rewrite E. Qed.

(** C1: when the environment has a non-empty value for the key, under its
    literal name or under its upper-case/underscore alias, [get] returns
    that value, whatever the merged mapping holds for the key. *)
Theorem get_env_wins (self : Config) (environ : gmap string string)
    (key : string) (default : value) (e : string) :
  set_to environ key e ∨
  (blank environ key ∧ set_to environ (replace "." "_" (upper key)) e) →
  get_env_value environ key None = Some e ∧
  get self environ key default = VStr e.
Proof.
  intros Hset.
  assert (get_env_value environ key None = Some e) as E.
  { destruct Hset as [Hlit|[Hb Halias]].
    - rewrite get_env_value_literal by by eapply truthy_str_set.
      apply Hlit.
    - apply truthy_str_blank in Hb.
      rewrite get_env_value_alias by (done || by eapply truthy_str_set).
      apply Halias. }
  split; [done|]. apply get_env_hit; [done|].
  destruct Hset as [[_ ?]|[_ [_ ?]]]; done.
Qed.

(** A key set both in the environment (by its alias) and in the mapping:
    the environment's value is returned. *)
Lemma get_env_wins_witness :
  _config (mkConfig {[ "db.host" := VStr "from-file" ]}) !! "db.host"
    = Some (VStr "from-file") ∧
  get (mkConfig {[ "db.host" := VStr "from-file" ]})
      {[ "DB_HOST" := "from-env" ]} "db.host" VNone = VStr "from-env".
Proof.
  split; [reflexivity|].
  apply (get_env_wins _ {[ "DB_HOST" := "from-env" ]} "db.host" VNone "from-env").
  right. split.
  - left. reflexivity.
  - split; [reflexivity | discriminate].
Defined.

(** ** Profile and dataset name *)

Lemma get_profile_hit (self : Config) (environ : gmap string string) (v : string) :
  get_env_value environ "application.profile" None = Some v → v ≠ "" →
  get_profile self environ = lower v.
Proof.
  intros E Hne. unfold get_profile. rewrite E.
  replace (truthy_str (Some v)) with true; [done|].
  symmetry. apply truthy_str_spec. eauto.
Qed.

(** C8: [get_profile()] is the lower-cased value of the environment
    variable [application.profile], or of [APPLICATION_PROFILE] when the
    former is unset or empty; it is ["local"] when neither holds a
    non-empty value; the instance, and so every settings file, has no
    part in it. *)
Theorem get_profile_from_environment (self : Config)
    (environ : gmap string string) :
  (∀ v, set_to environ "application.profile" v →
        get_profile self environ = lower v) ∧
  (∀ v, blank environ "application.profile" →
        set_to environ "APPLICATION_PROFILE" v →
        get_profile self environ = lower v) ∧
  (blank environ "application.profile" →
   blank environ "APPLICATION_PROFILE" →
   get_profile self environ = "local") ∧
  (∀ other : Config, get_profile other environ = get_profile self environ).
Proof.
  split; [|split; [|split]].
  - intros v Hv. apply get_profile_hit; [|apply Hv].
    rewrite get_env_value_literal by by eapply truthy_str_set.
    apply Hv.
  - intros v Hb Hv. apply truthy_str_blank in Hb.
    apply get_profile_hit; [|apply Hv].
    rewrite get_env_value_alias by (done || by eapply truthy_str_set).
    apply Hv.
  - intros Hb1 Hb2. apply truthy_str_blank in Hb1, Hb2.
    unfold get_profile. by rewrite get_env_value_default.
  - done.
Qed.

(** The profile of the test suite, a literal variable in mixed case, and
    the empty environment. *)
Lemma get_profile_from_environment_witness :
  get_profile (mkConfig {[ "application.profile" := VStr "prod" ]})
    {[ "APPLICATION_PROFILE" := "test" ]} = "test" ∧
  get_profile (mkConfig ∅) {[ "application.profile" := "Staging" ]}
    = "staging" ∧
  get_profile (mkConfig {[ "application.profile" := VStr "prod" ]}) ∅
    = "local".
Proof.
  split; [|split].
  - apply (proj1 (proj2 (get_profile_from_environment _ _)) "test").
    + left. reflexivity.
    + split; [reflexivity | discriminate].
  - apply (proj1 (get_profile_from_environment _ _) "Staging").
    split; [reflexivity | discriminate].
  - apply (proj1 (proj2 (proj2 (get_profile_from_environment _ _)))).
    + left. reflexivity.
    + left. reflexivity.
Defined.

(** C9: [get_dataset_name(base_name)] is [base_name] for the profiles
    prod, staging and ci, [base_name + "_qa"] for local, and
    [base_name + "_" + profile] for every other profile; two calls that
    resolve the same profile give the same name. *)
Theorem get_dataset_name_by_profile (self : Config)
    (environ : gmap string string) (base_name : string) :
  let profile := get_profile self environ in
  (profile ∈ ["prod"; "staging"; "ci"] →
   get_dataset_name self environ base_name = base_name) ∧
  (profile = "local" →
   get_dataset_name self environ base_name = base_name +:+ "_qa") ∧
  (profile ∉ ["prod"; "staging"; "ci"; "local"] →
   get_dataset_name self environ base_name = base_name +:+ "_" +:+ profile) ∧
  (∀ (self' : Config) (environ' : gmap string string),
     get_profile self' environ' = profile →
     get_dataset_name self' environ' base_name
       = get_dataset_name self environ base_name).
Proof.
  intros profile. unfold get_dataset_name. fold profile.
  split; [|split; [|split]].
  - intros Hin. apply in_list_spec in Hin. by rewrite Hin.
  - intros ->. reflexivity.
  - intros Hout.
    rewrite !in_list_false; [done| |].
    + intros Hin. apply Hout. apply list_elem_of_In. apply list_elem_of_In in Hin.
      simpl in *. tauto.
    + intros Hin. apply Hout. apply list_elem_of_In. apply list_elem_of_In in Hin.
      simpl in *. tauto.
  - intros self' environ' ->. reflexivity.
Qed.

(** The three profiles of the specification's example. *)
Lemma get_dataset_name_by_profile_witness :
  get_dataset_name (mkConfig ∅) {[ "APPLICATION_PROFILE" := "prod" ]} "x" = "x" ∧
  get_dataset_name (mkConfig ∅) ∅ "x" = "x_qa" ∧
  get_dataset_name (mkConfig ∅) {[ "APPLICATION_PROFILE" := "dev" ]} "x" = "x_dev".
Proof.
  split; [|split].
  - apply (proj1 (get_dataset_name_by_profile
                    (mkConfig ∅) {[ "APPLICATION_PROFILE" := "prod" ]} "x")).
    vm_compute. apply list_elem_of_here.
  - apply (proj1 (proj2 (get_dataset_name_by_profile (mkConfig ∅) ∅ "x"))).
    reflexivity.
  - change "x_dev" with
      ("x" +:+ "_" +:+ get_profile (mkConfig ∅) {[ "APPLICATION_PROFILE" := "dev" ]}).
    apply (proj1 (proj2 (proj2 (get_dataset_name_by_profile
                    (mkConfig ∅) {[ "APPLICATION_PROFILE" := "dev" ]} "x")))).
    intros Hin. apply list_elem_of_In in Hin. vm_compute in Hin.
    intuition discriminate.
Defined.

(** ** [get]: the mapping, then the default *)

Lemma get_blank (self : Config) (environ : gmap string string)
    (key : string) (default : value) :
  blank environ key → blank environ (replace "." "_" (upper key)) →
  get self environ key default =
    if truthy (dict_get (_config self) key)
    then dict_get (_config self) key else default.
Proof.
  intros Hb1 Hb2. apply truthy_str_blank in Hb1, Hb2.
  apply get_env_miss. by apply get_env_value_default.
Qed.

Lemma dict_get_delete (m : gmap string value) (key : string) :
  dict_get (delete key m) key = VNone.
Proof. unfold dict_get. by rewrite lookup_delete_eq. Qed.

(** What [get] returns is the environment's non-empty string, a true
    value of the mapping, or the default. *)
Lemma get_cases (self : Config) (environ : gmap string string)
    (key : string) (default : value) :
  (∃ e, e ≠ "" ∧ get self environ key default = VStr e) ∨
  (truthy (get self environ key default) = true) ∨
  get self environ key default = default.
Proof.
  unfold get. rewrite truthy_of_optional_str.
  destruct (truthy_str (get_env_value environ key None)) eqn:E.
  - apply truthy_str_spec in E as (e & -> & Hne). left. eauto.
  - destruct (truthy (dict_get (_config self) key)) eqn:E'; auto.
Qed.

(** C6: a value of the mapping that Python counts as false (the empty
    string, [False], zero) is treated by [get] as if the key were not in
    the mapping; the default is returned when the environment has nothing
    for the key, and the empty string is never what [get] retrieves
    (unless it is the default itself). *)
Theorem get_falsy_is_absent (self : Config) (environ : gmap string string)
    (key : string) (default v : value) :
  _config self !! key = Some v →
  truthy v = false →
  get self environ key default
    = get (mkConfig (delete key (_config self))) environ key default ∧
  (blank environ key → blank environ (replace "." "_" (upper key)) →
   get self environ key default = default) ∧
  (get self environ key default = VStr "" → default = VStr "").
Proof.
  intros Hv Hf.
  assert (truthy (dict_get (_config self) key) = false) as Hd.
  { unfold dict_get. by rewrite Hv. }
  split; [|split].
  - unfold get. simpl. rewrite dict_get_delete, Hd. simpl.
    by destruct (truthy _).
  - intros Hb1 Hb2. by rewrite get_blank, Hd.
  - intros E. destruct (get_cases self environ key default)
      as [(e & Hne & E')|[Ht|Hdef]].
    + congruence.
    + by rewrite E in Ht.
    + congruence.
Qed.

(** An empty string, [False] and zero in the mapping all give way to the
    default. *)
Lemma get_falsy_is_absent_witness :
  get (mkConfig {[ "k" := VStr "" ]}) ∅ "k" (VStr "d") = VStr "d" ∧
  get (mkConfig {[ "k" := VBool false ]}) ∅ "k" (VStr "d") = VStr "d" ∧
  get (mkConfig {[ "k" := VInt 0 ]}) ∅ "k" (VStr "d") = VStr "d".
Proof.
  split; [|split].
  - refine (proj1 (proj2 (get_falsy_is_absent
             (mkConfig {[ "k" := VStr "" ]}) ∅ "k" (VStr "d") (VStr "") _ _)) _ _);
      [reflexivity | reflexivity | left; reflexivity | left; reflexivity].
  - refine (proj1 (proj2 (get_falsy_is_absent
             (mkConfig {[ "k" := VBool false ]}) ∅ "k" (VStr "d") (VBool false) _ _)) _ _);
      [reflexivity | reflexivity | left; reflexivity | left; reflexivity].
  - refine (proj1 (proj2 (get_falsy_is_absent
             (mkConfig {[ "k" := VInt 0 ]}) ∅ "k" (VStr "d") (VInt 0) _ _)) _ _);
      [reflexivity | reflexivity | left; reflexivity | left; reflexivity].
Defined.

(** ** Boolean accessors *)

(** C5, as stated, fails: a number in the mapping makes both boolean
    accessors raise, and so does [True] under [get_boolean_required]. *)
Lemma boolean_accessors_raise :
  get_boolean (mkConfig {[ "k" := VInt 5 ]}) ∅ "k" (VBool false)
    = Raise AttributeError ∧
  get_boolean_required (mkConfig {[ "k" := VInt 5 ]}) ∅ "k"
    = Raise AttributeError ∧
  get_boolean_required (mkConfig {[ "k" := VBool true ]}) ∅ "k"
    = Raise AttributeError.
Proof. split; [|split]; reflexivity. Qed.

(** C5 (amended): when the value resolved for the key is a string, as
    every value from the environment is, [get_boolean] and
    [get_boolean_required] return whether its lower-case form is
    ["true"], and do not raise; [get_boolean] returns a resolved boolean
    as it is. *)
Theorem boolean_of_string_never_raises (self : Config)
    (environ : gmap string string) (key : string) (default : value) :
  (∀ s, get self environ key VNone = VStr s →
        get_boolean self environ key default
          = Ok (VBool (String.eqb (lower s) "true")) ∧
        get_boolean_required self environ key
          = Ok (VBool (String.eqb (lower s) "true"))) ∧
  (∀ b, get self environ key VNone = VBool b →
        get_boolean self environ key default = Ok (VBool b)) ∧
  (∀ e, get_env_value environ key None = Some e → e ≠ "" →
        get_boolean self environ key default
          = Ok (VBool (String.eqb (lower e) "true")) ∧
        get_boolean_required self environ key
          = Ok (VBool (String.eqb (lower e) "true"))).
Proof.
  assert (∀ s, get self environ key VNone = VStr s →
            get_boolean self environ key default
              = Ok (VBool (String.eqb (lower s) "true")) ∧
            get_boolean_required self environ key
              = Ok (VBool (String.eqb (lower s) "true"))) as Hstr.
  { intros s E.
    assert (truthy (VStr s) = true) as Ht.
    { destruct (get_cases self environ key VNone)
        as [(e & Hne & E')|[Ht|Hdef]].
      - rewrite E in E'. injection E' as ->. simpl.
        apply negb_true_iff. by apply String.eqb_neq.
      - by rewrite E in Ht.
      - congruence. }
    unfold get_boolean, get_boolean_required, get_required.
    rewrite E. simpl isinstance_bool. simpl is_None. cbv iota.
    rewrite Ht. done. }
  split; [done|split].
  - intros b E. unfold get_boolean. by rewrite E.
  - intros e E Hne. apply Hstr. by apply get_env_hit.
Qed.

(** ["True"] from the environment and ["yes"] from a file. *)
Lemma boolean_of_string_never_raises_witness :
  get_boolean (mkConfig ∅) {[ "FEATURE_X_ENABLED" := "True" ]}
    "feature.x.enabled" VNone = Ok (VBool true) ∧
  get_boolean_required (mkConfig {[ "k" := VStr "yes" ]}) ∅ "k"
    = Ok (VBool false) ∧
  get_boolean (mkConfig {[ "k" := VBool true ]}) ∅ "k" VNone
    = Ok (VBool true).
Proof.
  split; [|split].
  - refine (proj1 (proj2 (proj2 (boolean_of_string_never_raises (mkConfig ∅)
              {[ "FEATURE_X_ENABLED" := "True" ]} "feature.x.enabled" VNone))
              "True" _ _));
      [reflexivity | discriminate].
  - refine (proj2 (proj1 (boolean_of_string_never_raises
              (mkConfig {[ "k" := VStr "yes" ]}) ∅ "k" VNone) "yes" _));
      reflexivity.
  - refine (proj1 (proj2 (boolean_of_string_never_raises
              (mkConfig {[ "k" := VBool true ]}) ∅ "k" VNone)) true _);
      reflexivity.
Defined.

(** ** The merge loop and the case of keys *)

Lemma char_lower_idemp (c : ascii) : char_lower (char_lower c) = char_lower c.
Proof. destruct c as [[] [] [] [] [] [] [] []]; reflexivity. Qed.

Lemma lower_idemp (s : string) : lower (lower s) = lower s.
Proof.
  unfold lower. induction s as [|c s IH]; simpl; [done|].
  by rewrite char_lower_idemp, IH.
Qed.

(** The loop never raises, leaves the trace alone and stores every item
    under its lower-cased key, in order. *)
Lemma merge_items_run (items : list (string * value)) (st : store) :
  merge_items items st
    = (Ok tt, mkStore (mkConfig (merged items (mapping st))) (trace st)).
Proof.
  unfold merge_items, merged, mapping.
  revert st. induction items as [|[k v] items IH]; intros st.
  - by destruct st as [[m] tr].
  - change (for_each ((k, v) :: items) ?f st)
      with (for_each items f (mkStore (mkConfig (<[lower k := v]> (_config (obj st))))
                                (trace st))).
    by rewrite IH.
Qed.

Lemma merged_app (l1 l2 : list (string * value)) (m : gmap string value) :
  merged (l1 ++ l2) m = merged l2 (merged l1 m).
Proof. apply foldl_app. Qed.

(** Whatever the loop changed sits under a lower-case key. *)
Lemma merged_changes (items : list (string * value)) (m : gmap string value)
    (k : string) :
  merged items m !! k ≠ m !! k → k = lower k.
Proof.
  revert m. induction items as [|[k0 v0] items IH]; intros m Hne; [done|].
  simpl in Hne. destruct (decide (k = lower k0)) as [->|Hk].
  - by rewrite lower_idemp.
  - apply (IH (<[lower k0 := v0]> m)).
    by rewrite (lookup_insert_ne m (lower k0) k v0).
Qed.

Lemma keys_lower_insert (m : gmap string value) (k : string) (v : value) :
  keys_lower m → keys_lower (<[lower k := v]> m).
Proof.
  intros Hm k' Hk'. destruct (decide (k' = lower k)) as [->|Hne].
  - by rewrite lower_idemp.
  - apply Hm. by rewrite lookup_insert_ne in Hk'.
Qed.

Lemma merged_keys_lower (items : list (string * value)) (m : gmap string value) :
  keys_lower m → keys_lower (merged items m).
Proof.
  revert m. induction items as [|[k v] items IH]; intros m Hm; [done|].
  simpl. apply IH. by apply keys_lower_insert.
Qed.

(** The item merged last is the one found under its key. *)
Lemma merged_last (items : list (string * value)) (m : gmap string value)
    (k : string) (v : value) :
  merged (items ++ [(k, v)]) m !! lower k = Some v.
Proof. rewrite merged_app. simpl. apply lookup_insert_eq. Qed.

Lemma keys_lower_empty : keys_lower ∅.
Proof. intros k [v Hv]. by rewrite lookup_empty in Hv. Qed.

Lemma dict_get_not_lower (m : gmap string value) (key : string) :
  keys_lower m → key ≠ lower key → dict_get m key = VNone.
Proof.
  intros Hm Hk. unfold dict_get.
  destruct (m !! key) as [v|] eqn:E; [|done].
  destruct Hk. apply Hm. by rewrite E.
Qed.

(** C3, as stated, fails: a value stored from the file key [Top.Key] sits
    under [top.key], and [get] with the mixed-case key does not find it. *)
Lemma get_mixed_case_key_misses :
  mapping (merge_items [("Top.Key", VStr "a value")] fresh).2 !! lower "Top.Key"
    = Some (VStr "a value") ∧
  get (obj (merge_items [("Top.Key", VStr "a value")] fresh).2) ∅ "Top.Key" VNone
    = VNone.
Proof. split; reflexivity. Qed.

(** C3 (amended): the loop stores every key lower-cased (it never fails,
    whatever it changes is under a lower-case key, and a mapping with
    lower-case keys only stays so); when the environment has nothing for
    the key, [get] looks the key up as it is given; so a key that is not
    its own lower-case form finds nothing in such a mapping and the
    default is returned. *)
Theorem get_looks_up_key_as_given :
  (∀ (items : list (string * value)) (st : store),
     (merge_items items st).1 = Ok tt ∧
     (∀ k, mapping (merge_items items st).2 !! k ≠ mapping st !! k →
           k = lower k) ∧
     (keys_lower (mapping st) →
      keys_lower (mapping (merge_items items st).2))) ∧
  (∀ (self : Config) (environ : gmap string string) (key : string)
     (default : value),
     blank environ key → blank environ (replace "." "_" (upper key)) →
     get self environ key default =
       if truthy (dict_get (_config self) key)
       then dict_get (_config self) key else default) ∧
  (∀ (self : Config) (environ : gmap string string) (key : string)
     (default : value),
     keys_lower (_config self) → key ≠ lower key →
     blank environ key → blank environ (replace "." "_" (upper key)) →
     get self environ key default = default).
Proof.
  split; [|split].
  - intros items st. rewrite merge_items_run. simpl.
    split; [done|split].
    + apply merged_changes.
    + apply merged_keys_lower.
  - intros. by apply get_blank.
  - intros self environ key default Hm Hk Hb1 Hb2.
    by rewrite get_blank, dict_get_not_lower.
Qed.

(** After the file key [Top.Key] is merged, the lower-case key finds the
    value and the mixed-case key falls through to the default. *)
Lemma get_looks_up_key_as_given_witness :
  get (obj (merge_items [("Top.Key", VStr "a value")] fresh).2) ∅ "top.key"
      (VStr "dflt") = VStr "a value" ∧
  get (obj (merge_items [("Top.Key", VStr "a value")] fresh).2) ∅ "Top.Key"
      (VStr "dflt") = VStr "dflt".
Proof.
  split.
  - refine (proj1 (proj2 get_looks_up_key_as_given) _ ∅ "top.key" _ _ _);
      left; reflexivity.
  - refine (proj2 (proj2 get_looks_up_key_as_given) _ ∅ "Top.Key" _ _ _ _ _).
    + refine (proj2 (proj2 (proj1 get_looks_up_key_as_given _ fresh)) _).
      exact keys_lower_empty.
    + discriminate.
    + left; reflexivity.
    + left; reflexivity.
Defined.

(** ** The [try] statement that loads one file *)

Section Populate.
Context {ext : Externals}.

(** X12: a settings file that parses is announced, by [print] and at
    level info, and its items are merged over the mapping. *)
Lemma populate_try_found (config_file config_fullpath : string)
    (values : nested) (st : store) :
  load_toml_to_dict config_fullpath = Ok values →
  populate_try config_file config_fullpath st
    = (Ok tt,
       mkStore (mkConfig (merged (flatten_dict values ".") (mapping st)))
               (trace st ++ [Print ("Populating config with " +:+ config_fullpath);
                             LogInfo ("Populating config with " +:+ config_fullpath)])).
Proof.
  intros E. unfold populate_try, try_except, lift, mbind, M_bind.
  rewrite E. simpl. rewrite merge_items_run.
  unfold mapping. simpl. by rewrite <- List.app_assoc.
Qed.

(** X13: a missing file is passed over and leaves the mapping alone; it
    is reported, by [print] and as a warning, unless the name asked for
    contains [application-local.yml]. *)
Lemma populate_try_missing (config_file config_fullpath : string) (st : store) :
  load_toml_to_dict config_fullpath = Raise FileNotFoundError →
  populate_try config_file config_fullpath st
    = (Ok tt,
       mkStore (obj st)
         (trace st ++
          if contains "application-local.yml" config_file then []
          else [Print ("Config file not found: " +:+ config_fullpath);
                LogWarning ("Config file not found: " +:+ config_fullpath)])).
Proof.
  intros E. unfold populate_try, try_except, lift, mbind, M_bind.
  rewrite E. simpl.
  destruct (contains "application-local.yml" config_file); simpl.
  - rewrite app_nil_r. by destruct st.
  - unfold emit. simpl. by rewrite <- List.app_assoc.
Qed.

(** X14: any exception of the parser other than [FileNotFoundError]
    passes through, with nothing merged, printed or logged. *)
Lemma populate_try_propagates (config_file config_fullpath : string)
    (e : exn) (st : store) :
  load_toml_to_dict config_fullpath = Raise e →
  is_FileNotFoundError e = false →
  populate_try config_file config_fullpath st = (Raise e, st).
Proof.
  intros E He. unfold populate_try, try_except, lift, mbind, M_bind.
  rewrite E. simpl. by rewrite He.
Qed.

(** ** Construction *)

Lemma build_path_raises (filename rootdir : string) :
  build_path filename rootdir = Raise (NameError "cls").
Proof. reflexivity. Qed.

Lemma populate_one_argument (config_file : string) (st : store) :
  _populate_with_values_from_yml [config_file] st = (Raise TypeError, st).
Proof. reflexivity. Qed.

Lemma populate_two_arguments (config_file rootdir : string) (st : store) :
  _populate_with_values_from_yml [config_file; rootdir] st
    = (Raise (NameError "cls"), st).
Proof. reflexivity. Qed.

Lemma init_raises (environ : gmap string string) (args : list value)
    (kwargs : list (string * value)) (st : store) :
  __init__ environ args kwargs st
    = (Raise TypeError, mkStore (mkConfig ∅) (trace st)).
Proof. reflexivity. Qed.

(** C10: whatever the arguments, the environment and the files,
    [__init__] raises [TypeError] at its first call of
    [_populate_with_values_from_yml], which lacks the [rootdir] argument:
    the mapping is still empty and nothing was printed or logged.  Called
    with both arguments the method raises too, [NameError] for [cls] in
    [build_path], before it opens any file.  So [Config(...)] never
    yields an instance. *)
Theorem construction_always_raises (environ : gmap string string)
    (args : list value) (kwargs : list (string * value)) :
  __init__ environ args kwargs fresh = (Raise TypeError, fresh) ∧
  Config_new environ args kwargs = (Raise TypeError, []) ∧
  (∀ self : Config, (Config_new environ args kwargs).1 ≠ Ok self) ∧
  (∀ filename rootdir : string,
     build_path filename rootdir = Raise (NameError "cls")) ∧
  (∀ (config_file rootdir : string) (st : store),
     _populate_with_values_from_yml [config_file; rootdir] st
       = (Raise (NameError "cls"), st)).
Proof.
  split; [|split; [|split; [|split]]].
  - apply init_raises.
  - unfold Config_new. by rewrite init_raises.
  - intros self. unfold Config_new. by rewrite init_raises.
  - apply build_path_raises.
  - apply populate_two_arguments.
Qed.

End Populate.

(** Reached with the full paths of the test fixtures, the two [try]
    statements in a row do merge the profile file over the base file. *)
Example populate_try_test_fixture :
  let run :=
    (populate_try (ext := over_files test_resources)
       "resources/application.yml"
       "/repo/tests/fixtures/resources/application.yml";;
     populate_try (ext := over_files test_resources)
       "resources/application-test.yml"
       "/repo/tests/fixtures/resources/application-test.yml") fresh in
  run.1 = Ok tt ∧
  get (obj run.2) ∅ "top_level_key.some_sub_key" VNone = VStr "a value" ∧
  get (obj run.2) ∅ "top_level_key.key_to_be_overwritten" VNone
    = VStr "I have been overwritten".
Proof. repeat split; reflexivity. Qed.

(** C2: with the two files of the test fixtures in place and the profile
    set to test, as in [tests/config_test.py], construction raises
    [TypeError] instead of merging the profile file over the base file. *)
Theorem construction_of_test_fixture_raises :
  Config_new (ext := over_files test_resources)
    {[ "APPLICATION_PROFILE" := "test" ]} []
    [("resource_dir", VStr "/repo/tests/fixtures/resources")]
  = (Raise TypeError, []).
Proof. reflexivity. Qed.

(** C4: with no settings file at all, construction is fatal all the
    same; it raises [TypeError], and no warning is printed or logged. *)
Theorem construction_without_files_raises :
  Config_new (ext := over_files []) ∅ []
    [("resource_dir", VStr "/srv/app/resources")]
  = (Raise TypeError, []).
Proof. reflexivity. Qed.

(** * Further properties of the lookups *)

(** ** More on the environment *)

Lemma str_map_app (f : ascii → ascii) (a b : string) :
  str_map f (a +:+ b) = str_map f a +:+ str_map f b.
Proof. induction a as [|c a IH]; simpl; [done|]. by rewrite IH. Qed.

Lemma env_alias_app (a b : string) :
  env_alias (a +:+ b) = env_alias a +:+ env_alias b.
Proof. unfold env_alias, replace, upper. by rewrite !str_map_app. Qed.

Lemma env_alias_char_idemp (c : ascii) :
  let f := λ c, if Ascii.eqb (char_upper c) "." then "_"%char else char_upper c in
  f (f c) = f c.
Proof. destruct c as [[] [] [] [] [] [] [] []]; reflexivity. Qed.

Lemma env_alias_idemp (key : string) : env_alias (env_alias key) = env_alias key.
Proof.
  unfold env_alias, replace, upper.
  induction key as [|c key IH]; simpl; [done|].
  rewrite IH. f_equal. apply env_alias_char_idemp.
Qed.

Lemma get_env_value_unfold (environ : gmap string string) (key : string)
    (default : option string) :
  get_env_value environ key default =
    if truthy_str (environ !! key) then environ !! key
    else if truthy_str (environ !! env_alias key) then environ !! env_alias key
    else default.
Proof. reflexivity. Qed.

(** Nothing comes from the environment exactly when both names are blank. *)
Lemma get_env_value_None_iff (environ : gmap string string) (key : string) :
  get_env_value environ key None = None ↔
  blank environ key ∧ blank environ (env_alias key).
Proof.
  rewrite get_env_value_unfold, !truthy_str_blank.
  destruct (truthy_str (environ !! key)) eqn:E1.
  { apply truthy_str_spec in E1 as (s & -> & _). split; [done|]. by intros [? _]. }
  destruct (truthy_str (environ !! env_alias key)) eqn:E2.
  { apply truthy_str_spec in E2 as (s & -> & _). split; [done|]. by intros [_ ?]. }
  done.
Qed.

Lemma lookup_empty_or_unset (environ : gmap string string) (name k : string) :
  truthy_str (<[name := ""]> environ !! k)
    = truthy_str (delete name environ !! k) ∧
  (truthy_str (delete name environ !! k) = true →
   <[name := ""]> environ !! k = delete name environ !! k).
Proof.
  destruct (decide (name = k)) as [->|Hne].
  - rewrite lookup_insert_eq, lookup_delete_eq. by split.
  - by rewrite lookup_insert_ne, lookup_delete_ne.
Qed.

(** X1: a variable set to the empty string counts for nothing: every
    lookup gives what it gives with the variable removed. *)
Theorem env_empty_string_is_unset (environ : gmap string string)
    (name key : string) (default : option string) :
  get_env_value (<[name := ""]> environ) key default
    = get_env_value (delete name environ) key default.
Proof.
  rewrite !get_env_value_unfold.
  destruct (lookup_empty_or_unset environ name key) as [-> H1].
  destruct (lookup_empty_or_unset environ name (env_alias key)) as [-> H2].
  destruct (truthy_str (delete name environ !! key)); [by apply H1|].
  destruct (truthy_str (delete name environ !! env_alias key)); [by apply H2|].
  done.
Qed.

(** X2: when the dotted name itself is blank, asking for the key and
    asking for its upper-case/underscore alias give the same answer. *)
Theorem env_alias_same_answer (environ : gmap string string) (key : string)
    (default : option string) :
  blank environ key →
  get_env_value environ (env_alias key) default
    = get_env_value environ key default.
Proof.
  intros Hb. apply truthy_str_blank in Hb.
  rewrite !get_env_value_unfold, env_alias_idemp, Hb.
  by destruct (truthy_str (environ !! env_alias key)).
Qed.

Lemma env_alias_same_answer_witness :
  get_env_value {[ "DB_HOST" := "h" ]} "DB_HOST" None
    = get_env_value {[ "DB_HOST" := "h" ]} "db.host" None.
Proof.
  apply (env_alias_same_answer {[ "DB_HOST" := "h" ]} "db.host" None).
  left. reflexivity.
Defined.

(** ** More on [get] and [get_required] *)

Lemma get_unfold (self : Config) (environ : gmap string string) (key : string)
    (default : value) :
  get self environ key default =
    if truthy_str (get_env_value environ key None)
    then of_optional_str (get_env_value environ key None)
    else if truthy (dict_get (_config self) key)
         then dict_get (_config self) key
         else default.
Proof. unfold get. by rewrite truthy_of_optional_str. Qed.

(** [get] without a default is [None] exactly when neither source has a
    true value. *)
Lemma get_None_iff (self : Config) (environ : gmap string string) (key : string) :
  get self environ key VNone = VNone ↔
  blank environ key ∧ blank environ (env_alias key) ∧
  truthy (dict_get (_config self) key) = false.
Proof.
  rewrite get_unfold.
  pose proof (get_env_value_None_iff environ key) as [Hn1 Hn2].
  destruct (get_env_value_None_cases environ key) as [E|(e & E & Hne)];
    rewrite E in *; simpl.
  - destruct (Hn1 eq_refl) as [Hb1 Hb2].
    destruct (truthy (dict_get (_config self) key)) eqn:E2.
    + split; [|by intros (_ & _ & ?)]. intros E'. by rewrite E' in E2.
    + done.
  - replace (negb (e =? "")) with true
      by (symmetry; by apply negb_true_iff, String.eqb_neq).
    split; [done|]. intros (Hb1 & Hb2 & _). by specialize (Hn2 (conj Hb1 Hb2)).
Qed.

Lemma get_truthy_or_None (self : Config) (environ : gmap string string)
    (key : string) :
  get self environ key VNone = VNone ∨
  truthy (get self environ key VNone) = true.
Proof.
  rewrite get_unfold.
  destruct (truthy_str (get_env_value environ key None)) eqn:E1.
  { right. by rewrite truthy_of_optional_str. }
  destruct (truthy (dict_get (_config self) key)) eqn:E2; auto.
Qed.

(** X3: the default has a say only when nothing is resolved: [get] with
    a default is [get] without one, unless that is [None]; so whatever
    [get] returns is a true value or the default. *)
Theorem get_default_only_when_unresolved (self : Config)
    (environ : gmap string string) (key : string) (default : value) :
  get self environ key default =
    (if truthy (get self environ key VNone)
     then get self environ key VNone else default) ∧
  (truthy (get self environ key default) = true ∨
   get self environ key default = default).
Proof.
  rewrite !get_unfold.
  destruct (truthy_str (get_env_value environ key None)) eqn:E1.
  { rewrite truthy_of_optional_str, E1. auto. }
  destruct (truthy (dict_get (_config self) key)) eqn:E2.
  { rewrite E2. auto. }
  auto.
Qed.

(** X4: [get_required] raises [RequiredConfigKeyException], naming the
    key, exactly when both environment names are blank and the mapping
    has no true value under the key; it raises nothing else, and what it
    returns is a true value, the one [get] resolves. *)
Theorem get_required_outcomes (self : Config) (environ : gmap string string)
    (key : string) :
  (get_required self environ key
     = Raise (RequiredConfigKeyException
                ("Required key [" +:+ key +:+ "] not found in config")) ↔
   blank environ key ∧ blank environ (env_alias key) ∧
   truthy (dict_get (_config self) key) = false) ∧
  (∀ e, get_required self environ key = Raise e →
        e = RequiredConfigKeyException
              ("Required key [" +:+ key +:+ "] not found in config")) ∧
  (∀ v, get_required self environ key = Ok v →
        truthy v = true ∧ get self environ key VNone = v).
Proof.
  rewrite <- get_None_iff. unfold get_required.
  destruct (get_truthy_or_None self environ key) as [->|Ht]; simpl.
  { split; [done|]. split; [by intros e [= <-]|done]. }
  destruct (get self environ key VNone) eqn:E; simpl in *; try done;
    (split; [done|]; split; [done|]; by intros v [= <-]).
Qed.

(** A key whose file value is [False] is reported as missing. *)
Lemma get_required_outcomes_witness :
  get_required (mkConfig {[ "debug" := VBool false ]}) ∅ "debug"
    = Raise (RequiredConfigKeyException
               "Required key [debug] not found in config").
Proof.
  apply (proj2 (proj1 (get_required_outcomes
                         (mkConfig {[ "debug" := VBool false ]}) ∅ "debug"))).
  split; [left; reflexivity|]. split; [left; reflexivity|reflexivity].
Defined.

(** ** More on the boolean accessors *)

Lemma get_falsy_None (self : Config) (environ : gmap string string)
    (key : string) (v : value) :
  _config self !! key = Some v → truthy v = false →
  blank environ key → blank environ (env_alias key) →
  get self environ key VNone = VNone.
Proof.
  intros Hv Hf Hb1 Hb2. apply get_None_iff. repeat split; [done..|].
  unfold dict_get. by rewrite Hv.
Qed.

Lemma get_boolean_of_str (self : Config) (environ : gmap string string)
    (key : string) (default : value) (s : string) :
  get self environ key VNone = VStr s → s ≠ "" →
  get_boolean self environ key default = Ok (VBool (String.eqb (lower s) "true")).
Proof.
  intros E Hne. unfold get_boolean. rewrite E. simpl.
  by replace (negb (s =? "")) with true
    by (symmetry; by apply negb_true_iff, String.eqb_neq).
Qed.

(** X5: a value of the mapping that counts as false, [False] included,
    is invisible to the boolean accessors when the environment is blank:
    [get_boolean] returns the default whatever it is, [is_enabled] says
    [False], and [get_boolean_required] reports the key as missing. *)
Theorem falsy_file_value_and_booleans (self : Config)
    (environ : gmap string string) (key : string) (default v : value) :
  _config self !! key = Some v → truthy v = false →
  blank environ key → blank environ (env_alias key) →
  get_boolean self environ key default = Ok default ∧
  is_enabled self environ key = Ok (VBool false) ∧
  get_boolean_required self environ key
    = Raise (RequiredConfigKeyException
               ("Required key [" +:+ key +:+ "] not found in config")).
Proof.
  intros Hv Hf Hb1 Hb2.
  pose proof (get_falsy_None self environ key v Hv Hf Hb1 Hb2) as E.
  unfold is_enabled, get_boolean, get_boolean_required, get_required.
  by rewrite E.
Qed.

(** [False] in the file and a default of [True]: the answer is [True]. *)
Lemma falsy_file_value_and_booleans_witness :
  get_boolean (mkConfig {[ "debug" := VBool false ]}) ∅ "debug" (VBool true)
    = Ok (VBool true).
Proof.
  refine (proj1 (falsy_file_value_and_booleans
                   (mkConfig {[ "debug" := VBool false ]}) ∅ "debug"
                   (VBool true) (VBool false) _ _ _ _));
    [reflexivity | reflexivity | left; reflexivity | left; reflexivity].
Defined.



(** X7: a feature is switched by the variable
    [FEATURE_<NAME>_ENABLED], the name upper-cased with dots as
    underscores, when the dotted variable is blank: the feature is on
    exactly when that variable says true in any case.  With nothing in
    the environment and no true value in the mapping it is off. *)
Theorem has_feature_from_environment (self : Config)
    (environ : gmap string string) (feature_name : string) :
  blank environ ("feature." +:+ feature_name +:+ ".enabled") →
  (∀ v, set_to environ ("FEATURE_" +:+ env_alias feature_name +:+ "_ENABLED") v →
        has_feature self environ feature_name
          = Ok (VBool (String.eqb (lower v) "true"))) ∧
  (blank environ ("FEATURE_" +:+ env_alias feature_name +:+ "_ENABLED") →
   truthy (dict_get (_config self)
             ("feature." +:+ feature_name +:+ ".enabled")) = false →
   has_feature self environ feature_name = Ok (VBool false)).
Proof.
  intros Hb.
  assert (env_alias ("feature." +:+ feature_name +:+ ".enabled")
          = "FEATURE_" +:+ env_alias feature_name +:+ "_ENABLED") as Ea.
  { by rewrite !env_alias_app. }
  unfold has_feature, is_enabled. split.
  - intros v Hv. apply get_boolean_of_str; [|apply Hv].
    apply get_env_hit; [|apply Hv].
    apply truthy_str_blank in Hb.
    rewrite get_env_value_alias; fold (env_alias ("feature." +:+ feature_name +:+ ".enabled"));
      rewrite ?Ea; [apply Hv|done|by eapply truthy_str_set].
  - intros Hb2 Hd. unfold get_boolean.
    replace (get self environ ("feature." +:+ feature_name +:+ ".enabled") VNone)
      with VNone; [done|].
    symmetry. apply get_None_iff. by rewrite Ea.
Qed.

Lemma has_feature_from_environment_witness :
  has_feature (mkConfig ∅) {[ "FEATURE_NEW_UI_ENABLED" := "True" ]} "new.ui"
    = Ok (VBool true) ∧
  has_feature (mkConfig ∅) ∅ "new.ui" = Ok (VBool false).
Proof.
  split.
  - refine (proj1 (has_feature_from_environment (mkConfig ∅)
                     {[ "FEATURE_NEW_UI_ENABLED" := "True" ]} "new.ui" _) "True" _).
    + left. reflexivity.
    + split; [reflexivity | discriminate].
  - refine (proj2 (has_feature_from_environment (mkConfig ∅) ∅ "new.ui" _) _ _).
    + left. reflexivity.
    + left. reflexivity.
    + reflexivity.
Defined.

(** ** More on the profile and the dataset name *)

Lemma lower_empty (s : string) : lower s = "" → s = "".
Proof. by destruct s. Qed.

Lemma append_empty_r (s : string) : s +:+ "" = s.
Proof.
  induction s as [|c s IH]; [done|].
  change (String c (s +:+ "") = String c s). by rewrite IH.
Qed.

(** X8: the profile is never empty and always in lower case. *)
Theorem get_profile_lower_nonempty (self : Config) (environ : gmap string string) :
  get_profile self environ ≠ "" ∧
  lower (get_profile self environ) = get_profile self environ.
Proof.
  unfold get_profile.
  destruct (get_env_value_None_cases environ "application.profile")
    as [->|(e & -> & Hne)].
  - by split.
  - replace (truthy_str (Some e)) with true
      by (symmetry; apply truthy_str_spec; eauto).
    split; [|apply lower_idemp].
    intros E. by apply lower_empty in E.
Qed.

(** X9: the dataset name is the base name followed by a suffix that the
    environment alone decides; the base name is never altered. *)
Theorem get_dataset_name_appends (self : Config) (environ : gmap string string) :
  ∃ suffix, ∀ base_name,
    get_dataset_name self environ base_name = base_name +:+ suffix.
Proof.
  unfold get_dataset_name.
  destruct (in_list (get_profile self environ) ["prod"; "staging"; "ci"]).
  { exists "". intros. by rewrite append_empty_r. }
  destruct (in_list (get_profile self environ) ["local"]).
  { by exists "_qa". }
  by exists ("_" +:+ get_profile self environ).
Qed.

(** X10: the profile is matched whatever the case of the variable's
    value: a value that is prod, staging or ci once lower-cased leaves
    the base name as it is. *)
Theorem get_dataset_name_ignores_case (self : Config)
    (environ : gmap string string) (base_name v : string) :
  set_to environ "application.profile" v ∨
  (blank environ "application.profile" ∧ set_to environ "APPLICATION_PROFILE" v) →
  lower v ∈ ["prod"; "staging"; "ci"] →
  get_dataset_name self environ base_name = base_name.
Proof.
  intros Hset Hin.
  assert (get_profile self environ = lower v) as E.
  { destruct Hset as [Hlit|[Hb Hal]].
    - apply get_profile_hit; [|apply Hlit].
      rewrite get_env_value_literal by by eapply truthy_str_set. apply Hlit.
    - apply truthy_str_blank in Hb. apply get_profile_hit; [|apply Hal].
      rewrite get_env_value_alias by (done || by eapply truthy_str_set).
      apply Hal. }
  unfold get_dataset_name. rewrite E.
  apply in_list_spec in Hin. by rewrite Hin.
Qed.

Lemma get_dataset_name_ignores_case_witness :
  get_dataset_name (mkConfig ∅) {[ "APPLICATION_PROFILE" := "PROD" ]} "sales"
    = "sales".
Proof.
  apply (get_dataset_name_ignores_case (mkConfig ∅)
           {[ "APPLICATION_PROFILE" := "PROD" ]} "sales" "PROD").
  - right. split; [left; reflexivity|]. split; [reflexivity | discriminate].
  - vm_compute. apply list_elem_of_here.
Defined.

(** * Further properties of the merge *)

Lemma merged_untouched (items : list (string * value)) (m : gmap string value)
    (k : string) :
  (∀ k0 v0, (k0, v0) ∈ items → lower k0 ≠ k) →
  merged items m !! k = m !! k.
Proof.
  revert m. induction items as [|[k0 v0] items IH]; intros m Hk; [done|].
  simpl. rewrite IH.
  - apply lookup_insert_ne. apply (Hk k0 v0). apply list_elem_of_here.
  - intros k1 v1 Hin. apply (Hk k1 v1). by apply list_elem_of_further.
Qed.

Lemma merged_wins (l1 l2 : list (string * value)) (m : gmap string value)
    (k : string) (v : value) :
  (∀ k' v', (k', v') ∈ l2 → lower k' ≠ lower k) →
  merged (l1 ++ (k, v) :: l2)%list m !! lower k = Some v.
Proof.
  intros Hl2. rewrite merged_app. simpl.
  rewrite merged_untouched by done. apply lookup_insert_eq.
Qed.

Lemma merged_keeps_keys (items : list (string * value)) (m : gmap string value)
    (k : string) :
  is_Some (m !! k) → is_Some (merged items m !! k).
Proof.
  revert m. induction items as [|[k0 v0] items IH]; intros m Hk; [done|].
  simpl. apply IH. apply lookup_insert_is_Some.
  destruct (decide (lower k0 = k)); auto.
Qed.

(** X11: in the merge loop the last item written under a key wins, keys
    being compared after lower-casing, and a key that no item lower-cases
    to keeps what the mapping had. *)
Theorem merge_last_write_wins (items : list (string * value)) (st : store) :
  (∀ l1 k v l2,
     items = (l1 ++ (k, v) :: l2)%list →
     (∀ k' v', (k', v') ∈ l2 → lower k' ≠ lower k) →
     mapping (merge_items items st).2 !! lower k = Some v) ∧
  (∀ k, (∀ k0 v0, (k0, v0) ∈ items → lower k0 ≠ k) →
        mapping (merge_items items st).2 !! k = mapping st !! k).
Proof.
  rewrite merge_items_run. unfold mapping at 1 3. simpl. split.
  - intros l1 k v l2 -> Hl2. by apply merged_wins.
  - intros k Hk. by apply merged_untouched.
Qed.

(** Two spellings of one key in a file: the later one is kept, under the
    lower-case key. *)
Lemma merge_last_write_wins_witness :
  mapping (merge_items [("Db.Host", VStr "a"); ("port", VInt 1);
                        ("DB.HOST", VStr "b")] fresh).2 !! "db.host"
    = Some (VStr "b").
Proof.
  refine (proj1 (merge_last_write_wins _ fresh)
            [("Db.Host", VStr "a"); ("port", VInt 1)] "DB.HOST" (VStr "b") []
            eq_refl _).
  intros k' v' Hin. by apply not_elem_of_nil in Hin.
Defined.

(** One file with one key. *)
Lemma populate_try_found_witness :
  populate_try (ext := over_files [("/etc/app.yml", Ok (Node [("A", Leaf (VInt 1))]))])
    "app.yml" "/etc/app.yml" fresh
  = (Ok tt,
     mkStore (mkConfig (merged [("A", VInt 1)] ∅))
       [Print "Populating config with /etc/app.yml";
        LogInfo "Populating config with /etc/app.yml"]).
Proof.
  exact (populate_try_found
           (ext := over_files [("/etc/app.yml", Ok (Node [("A", Leaf (VInt 1))]))])
           "app.yml" "/etc/app.yml" (Node [("A", Leaf (VInt 1))]) fresh eq_refl).
Defined.

(** The local profile's file is missed in silence, the base file is not. *)
Lemma populate_try_missing_witness :
  populate_try (ext := over_files [])
    "resources/application-local.yml" "/srv/resources/application-local.yml" fresh
    = (Ok tt, fresh) ∧
  populate_try (ext := over_files [])
    "resources/application.yml" "/srv/resources/application.yml" fresh
    = (Ok tt,
       mkStore (mkConfig ∅)
         [Print "Config file not found: /srv/resources/application.yml";
          LogWarning "Config file not found: /srv/resources/application.yml"]).
Proof.
  split.
  - exact (populate_try_missing (ext := over_files [])
             "resources/application-local.yml"
             "/srv/resources/application-local.yml" fresh eq_refl).
  - exact (populate_try_missing (ext := over_files [])
             "resources/application.yml"
             "/srv/resources/application.yml" fresh eq_refl).
Defined.

(** A file the parser cannot decode. *)
Lemma populate_try_propagates_witness :
  populate_try
    (ext := over_files [("/etc/app.yml", Raise (OtherError "TOMLDecodeError"))])
    "app.yml" "/etc/app.yml" fresh
  = (Raise (OtherError "TOMLDecodeError"), fresh).
Proof.
  exact (populate_try_propagates
           (ext := over_files [("/etc/app.yml", Raise (OtherError "TOMLDecodeError"))])
           "app.yml" "/etc/app.yml" (OtherError "TOMLDecodeError") fresh
           eq_refl eq_refl).
Defined.

(** The three ways out of the [try] statement. *)
Lemma populate_try_cases {ext : Externals} (config_file config_fullpath : string)
    (st : store) :
  populate_try config_file config_fullpath st =
    match load_toml_to_dict config_fullpath with
    | Ok values =>
        (Ok tt,
         mkStore (mkConfig (merged (flatten_dict values ".") (mapping st)))
           (trace st ++ [Print ("Populating config with " +:+ config_fullpath);
                         LogInfo ("Populating config with " +:+ config_fullpath)]))
    | Raise e =>
        if is_FileNotFoundError e then
          (Ok tt,
           mkStore (obj st)
             (trace st ++
              if contains "application-local.yml" config_file then []
              else [Print ("Config file not found: " +:+ config_fullpath);
                    LogWarning ("Config file not found: " +:+ config_fullpath)]))
        else (Raise e, st)
    end.
Proof.
  unfold populate_try, try_except, lift, mbind, M_bind.
  destruct (load_toml_to_dict config_fullpath) as [values|e]; simpl.
  - rewrite merge_items_run. unfold mapping. simpl.
    by rewrite <- List.app_assoc.
  - destruct (is_FileNotFoundError e); [|done].
    destruct (contains "application-local.yml" config_file); simpl.
    + rewrite app_nil_r. by destruct st.
    + unfold emit. simpl. by rewrite <- List.app_assoc.
Qed.

(** X15: whatever happens to the file, the [try] statement keeps a
    mapping with lower-case keys in that form, removes no key, and only
    adds to what was printed and logged. *)
Theorem populate_try_preserves {ext : Externals}
    (config_file config_fullpath : string) (st : store) :
  (keys_lower (mapping st) →
   keys_lower (mapping (populate_try config_file config_fullpath st).2)) ∧
  (∀ k, is_Some (mapping st !! k) →
        is_Some (mapping (populate_try config_file config_fullpath st).2 !! k)) ∧
  (∃ more, trace (populate_try config_file config_fullpath st).2
             = (trace st ++ more)%list).
Proof.
  rewrite populate_try_cases.
  destruct (load_toml_to_dict config_fullpath) as [values|e]; simpl.
  - split; [apply merged_keys_lower|]. split; [|eauto].
    intros k. apply merged_keeps_keys.
  - destruct (is_FileNotFoundError e); simpl.
    + split; [done|]. split; [done|eauto].
    + split; [done|]. split; [done|]. exists []. by rewrite app_nil_r.
Qed.

Lemma populate_try_preserves_witness :
  keys_lower (mapping (populate_try (ext := over_files test_resources)
    "resources/application.yml"
    "/repo/tests/fixtures/resources/application.yml" fresh).2).
Proof.
  apply (proj1 (populate_try_preserves (ext := over_files test_resources)
                  "resources/application.yml"
                  "/repo/tests/fixtures/resources/application.yml" fresh)).
  exact keys_lower_empty.
Defined.

(** X16: when the base file and then the profile file are loaded by two
    [try] statements in a row, a key of the profile file holds the
    profile file's (last) value, and a key the profile file does not
    have keeps what the base file left. *)
Theorem profile_file_overrides_base {ext : Externals}
    (base_file base_path profile_file profile_path : string)
    (base profile : nested) (st : store) :
  load_toml_to_dict base_path = Ok base →
  load_toml_to_dict profile_path = Ok profile →
  ((populate_try base_file base_path;;
    populate_try profile_file profile_path) st).1 = Ok tt ∧
  (∀ l1 k v l2,
     flatten_dict profile "." = (l1 ++ (k, v) :: l2)%list →
     (∀ k' v', (k', v') ∈ l2 → lower k' ≠ lower k) →
     mapping ((populate_try base_file base_path;;
               populate_try profile_file profile_path) st).2 !! lower k
       = Some v) ∧
  (∀ k, (∀ k0 v0, (k0, v0) ∈ flatten_dict profile "." → lower k0 ≠ k) →
        mapping ((populate_try base_file base_path;;
                  populate_try profile_file profile_path) st).2 !! k
          = merged (flatten_dict base ".") (mapping st) !! k).
Proof.
  intros Eb Ep. unfold mbind, M_bind.
  rewrite (populate_try_cases base_file), Eb.
  rewrite (populate_try_cases profile_file), Ep.
  unfold mapping. simpl. split; [done|split].
  - intros l1 k v l2 -> Hl2. by apply merged_wins.
  - intros k Hk. by apply merged_untouched.
Qed.

(** The key both fixture files define. *)
Lemma profile_file_overrides_base_witness :
  mapping ((populate_try (ext := over_files test_resources)
              "resources/application.yml"
              "/repo/tests/fixtures/resources/application.yml";;
            populate_try (ext := over_files test_resources)
              "resources/application-test.yml"
              "/repo/tests/fixtures/resources/application-test.yml") fresh).2
    !! "top_level_key.key_to_be_overwritten"
  = Some (VStr "I have been overwritten").
Proof.
  refine (proj1 (proj2 (profile_file_overrides_base
            (ext := over_files test_resources)
            "resources/application.yml"
            "/repo/tests/fixtures/resources/application.yml"
            "resources/application-test.yml"
            "/repo/tests/fixtures/resources/application-test.yml"
            _ _ fresh eq_refl eq_refl))
            [] "top_level_key.key_to_be_overwritten"
            (VStr "I have been overwritten") [] eq_refl _).
  intros k' v' Hin. by apply not_elem_of_nil in Hin.
Defined.

(** * Properties of the numeric accessors *)

(** ** [int] reads back what [str] prints *)

Lemma pretty_N_char_digit (x : N) :
  (x < 10)%N →
  is_digit (pretty_N_char x) = true ∧ digit_value (pretty_N_char x) = Z.of_N x.
Proof.
  intros Hx. destruct x as [|p]; [by split|].
  do 4 (try destruct p as [p|p|]); first [by split | lia].
Qed.

Lemma int_digits_digit (acc : Z) (n : nat) (prev : bool) (c : ascii) (s : string) :
  is_digit c = true →
  int_digits acc n prev (String c s)
    = int_digits (10 * acc + digit_value c) (S n) true s.
Proof. intros Hc. simpl. by rewrite Hc. Qed.

(** The digits [pretty] puts in front of [s] are read, most significant
    first, into the accumulator. *)
Lemma int_digits_pretty_N_go (x : N) :
  (0 < x)%N →
  ∀ s, ∃ k c r,
    pretty_N_go x s = String c r ∧ is_digit c = true ∧
    String.length (pretty_N_go x s) = (k + String.length s)%nat ∧
    ∀ acc n prev,
      int_digits acc n prev (pretty_N_go x s)
        = int_digits (acc * 10 ^ Z.of_nat k + Z.of_N x) (n + k) true s.
Proof.
  induction (N.lt_wf_0 x) as [x _ IH]. intros Hx s.
  rewrite pretty_N_go_step by done.
  destruct (pretty_N_char_digit (x `mod` 10)) as [Hd Hv].
  { by apply N.mod_lt. }
  assert (Z.of_N x = 10 * Z.of_N (x `div` 10) + Z.of_N (x `mod` 10))%Z as Hdm.
  { pose proof (N.div_mod x 10 ltac:(done)). lia. }
  destruct (decide (x `div` 10 = 0)%N) as [E0|Hne].
  - rewrite E0, pretty_N_go_0. exists 1%nat, (pretty_N_char (x `mod` 10)), s.
    split; [done|]. split; [done|]. split; [done|].
    intros acc n prev. rewrite int_digits_digit, Hv by done.
    rewrite Hdm, E0. change (10 ^ Z.of_nat 1)%Z with 10%Z.
    replace (acc * 10 + (10 * Z.of_N 0 + Z.of_N (x `mod` 10)))%Z
      with (10 * acc + Z.of_N (x `mod` 10))%Z by lia.
    by replace (n + 1)%nat with (S n) by lia.
  - destruct (IH (x `div` 10)%N) with (s := String (pretty_N_char (x `mod` 10)) s)
      as (k & c & r & Es & Hc & Hlen & Hrd).
    { apply N.div_lt; lia. }
    { by apply N.neq_0_lt_0. }
    exists (S k), c, r. split; [done|]. split; [done|].
    split; [rewrite Hlen; simpl; lia|].
    intros acc n prev. rewrite Hrd, int_digits_digit, Hv by done.
    rewrite Nat2Z.inj_succ, Z.pow_succ_r by lia.
    rewrite Hdm.
    replace (acc * (10 * 10 ^ Z.of_nat k)
             + (10 * Z.of_N (x `div` 10) + Z.of_N (x `mod` 10)))%Z
      with (10 * (acc * 10 ^ Z.of_nat k + Z.of_N (x `div` 10))
            + Z.of_N (x `mod` 10))%Z by ring.
    by replace (n + S k)%nat with (S (n + k)) by lia.
Qed.

Lemma int_of_str_digit_head (lim : nat) (c : ascii) (r : string) :
  is_digit c = true →
  int_of_str lim (String c r) =
    match int_digits 0 0 false (String c r) with
    | Some (z, n) =>
        if over_digit_limit lim n then Raise ValueError else Ok z
    | None => Raise ValueError
    end.
Proof.
  intros Hc. destruct c as [[] [] [] [] [] [] [] []]; try discriminate Hc;
    reflexivity.
Qed.

Lemma digit_limit_ok (lim k : nat) :
  lim = 0%nat ∨ (k ≤ lim)%nat → over_digit_limit lim k = false.
Proof.
  unfold over_digit_limit. intros [->|Hk].
  - by rewrite andb_false_r.
  - apply andb_false_iff. right. apply Nat.ltb_ge. lia.
Qed.

Lemma int_of_str_pretty_pos (lim : nat) (p : positive) :
  lim = 0%nat ∨ (String.length (pretty (N.pos p)) ≤ lim)%nat →
  int_of_str lim (pretty (N.pos p)) = Ok (Z.pos p) ∧
  ∃ c r, pretty (N.pos p) = String c r ∧ is_digit c = true.
Proof.
  unfold pretty, pretty_N. simpl.
  destruct (int_digits_pretty_N_go (N.pos p)) with (s := "")
    as (k & c & r & Es & Hc & Hlen & Hrd); [lia|].
  intros Hlim. split; [|eauto].
  rewrite Hlen in Hlim. rewrite Es, int_of_str_digit_head by done.
  rewrite <- Es, Hrd. simpl.
  rewrite digit_limit_ok by (destruct Hlim; [by left|right; lia]).
  done.
Qed.

Lemma int_of_str_pretty (lim : nat) (z : Z) :
  lim = 0%nat ∨ (String.length (pretty z) ≤ lim)%nat →
  int_of_str lim (pretty z) = Ok z.
Proof.
  destruct z as [|p|p].
  - intros _. reflexivity.
  - change (pretty (Z.pos p)) with (pretty (N.pos p)).
    intros Hlim. by apply int_of_str_pretty_pos.
  - change (pretty (Z.neg p)) with (String "-" (pretty (N.pos p))).
    intros Hlim.
    destruct (int_of_str_pretty_pos lim p) as [Ep (c & r & Es & Hc)].
    { destruct Hlim as [?|Hlim]; [by left|right]. simpl in Hlim. lia. }
    rewrite Es, int_of_str_digit_head in Ep by done.
    unfold int_of_str. simpl lstrip. cbv iota beta. rewrite Es.
    destruct (int_digits 0 0 false (String c r)) as [[z n]|]; [|done].
    destruct (over_digit_limit lim n); [done|].
    by injection Ep as ->.
Qed.

Lemma pretty_Z_nonempty (lim : nat) (z : Z) :
  lim = 0%nat ∨ (String.length (pretty z) ≤ lim)%nat → pretty z ≠ "".
Proof.
  intros Hlim E. pose proof (int_of_str_pretty lim z Hlim) as Hz.
  rewrite E in Hz. discriminate Hz.
Qed.

Lemma truthy_VStr (s : string) : s ≠ "" → truthy (VStr s) = true.
Proof. intros Hne. simpl. by apply negb_true_iff, String.eqb_neq. Qed.

(** X17: an integer written in decimal in the environment is read back:
    when the variable resolved for the key holds [str(n)], and [str(n)]
    is within the interpreter's digit limit, [get_int] and
    [get_int_required] return [n]; zero included, since ["0"] is a
    non-empty string. *)
Theorem get_int_reads_decimal {py : Builtins} (self : Config)
    (environ : gmap string string) (key : string) (default : value) (n : Z) :
  get_env_value environ key None = Some (pretty n) →
  int_max_str_digits = 0%nat ∨
    (String.length (pretty n) ≤ int_max_str_digits)%nat →
  get_int self environ key default = Ok (VInt n) ∧
  get_int_required self environ key = Ok (VInt n).
Proof.
  intros E Hlim.
  pose proof (pretty_Z_nonempty _ n Hlim) as Hne.
  pose proof (get_env_hit self environ key VNone _ E Hne) as Eg.
  unfold get_int, get_int_required, get_required.
  rewrite Eg, truthy_VStr by done. simpl.
  by rewrite int_of_str_pretty.
Qed.

Lemma get_int_reads_decimal_witness :
  get_int (py := plain_builtins) (mkConfig {[ "port" := VInt 1 ]})
    {[ "PORT" := "-8080" ]} "port" VNone = Ok (VInt (-8080)) ∧
  get_int_required (py := plain_builtins) (mkConfig ∅)
    {[ "retries" := "0" ]} "retries" = Ok (VInt 0).
Proof.
  split.
  - refine (proj1 (get_int_reads_decimal (py := plain_builtins)
                     (mkConfig {[ "port" := VInt 1 ]}) {[ "PORT" := "-8080" ]}
                     "port" VNone (-8080) _ _)).
    + reflexivity.
    + right. vm_compute. lia.
  - refine (proj2 (get_int_reads_decimal (py := plain_builtins)
                     (mkConfig ∅) {[ "retries" := "0" ]}
                     "retries" VNone 0 _ _)).
    + reflexivity.
    + right. vm_compute. lia.
Defined.

(** X18: a value of the mapping that counts as false, zero included, is
    invisible to the numeric accessors when the environment is blank:
    [get_int] and [get_float] return the default without converting
    anything, and [get_int_required] reports the key as missing. *)
Theorem falsy_file_value_and_numbers {py : Builtins} (self : Config)
    (environ : gmap string string) (key : string) (default v : value) :
  _config self !! key = Some v → truthy v = false →
  blank environ key → blank environ (env_alias key) →
  get_int self environ key default = Ok default ∧
  get_float self environ key default = Ok default ∧
  get_int_required self environ key
    = Raise (RequiredConfigKeyException
               ("Required key [" +:+ key +:+ "] not found in config")).
Proof.
  intros Hv Hf Hb1 Hb2.
  pose proof (get_falsy_None self environ key v Hv Hf Hb1 Hb2) as E.
  unfold get_int, get_float, get_int_required, get_required.
  by rewrite E.
Qed.

(** A port of zero in the file. *)
Lemma falsy_file_value_and_numbers_witness :
  get_int (py := plain_builtins) (mkConfig {[ "port" := VInt 0 ]}) ∅ "port"
    (VInt 8080) = Ok (VInt 8080) ∧
  get_int_required (py := plain_builtins) (mkConfig {[ "port" := VInt 0 ]}) ∅
    "port" = Raise (RequiredConfigKeyException
                      "Required key [port] not found in config").
Proof.
  split.
  - refine (proj1 (falsy_file_value_and_numbers (py := plain_builtins)
                     (mkConfig {[ "port" := VInt 0 ]}) ∅ "port" (VInt 8080)
                     (VInt 0) _ _ _ _));
      [reflexivity | reflexivity | left; reflexivity | left; reflexivity].
  - refine (proj2 (proj2 (falsy_file_value_and_numbers (py := plain_builtins)
                     (mkConfig {[ "port" := VInt 0 ]}) ∅ "port" VNone
                     (VInt 0) _ _ _ _)));
      [reflexivity | reflexivity | left; reflexivity | left; reflexivity].
Defined.

Lemma get_from_mapping (self : Config) (environ : gmap string string)
    (key : string) (v : value) :
  blank environ key → blank environ (env_alias key) →
  _config self !! key = Some v → truthy v = true →
  get self environ key VNone = v.
Proof.
  intros Hb1 Hb2 Hv Ht. rewrite get_blank by done.
  unfold dict_get. rewrite Hv. simpl. by rewrite Ht.
Qed.

(** X19: with a blank environment, the numeric accessors take a number
    of the mapping as it is: a non-zero integer comes back from
    [get_int] and [get_int_required], a non-zero float from
    [get_float]; and [True] comes back as the integer 1. *)
Theorem get_number_from_mapping {py : Builtins} (self : Config)
    (environ : gmap string string) (key : string) (default : value) :
  blank environ key → blank environ (env_alias key) →
  (∀ n, _config self !! key = Some (VInt n) → n ≠ 0%Z →
        get_int self environ key default = Ok (VInt n) ∧
        get_int_required self environ key = Ok (VInt n)) ∧
  (∀ f, _config self !! key = Some (VFloat f) → truthy (VFloat f) = true →
        get_float self environ key default = Ok (VFloat f)) ∧
  (_config self !! key = Some (VBool true) →
   get_int self environ key default = Ok (VInt 1) ∧
   get_int_required self environ key = Ok (VInt 1)).
Proof.
  intros Hb1 Hb2. split; [|split].
  - intros n Hv Hn.
    assert (truthy (VInt n) = true) as Ht.
    { simpl. by apply negb_true_iff, Z.eqb_neq. }
    pose proof (get_from_mapping self environ key _ Hb1 Hb2 Hv Ht) as E.
    unfold get_int, get_int_required, get_required. by rewrite E, Ht.
  - intros f Hv Ht.
    pose proof (get_from_mapping self environ key _ Hb1 Hb2 Hv Ht) as E.
    unfold get_float. by rewrite E, Ht.
  - intros Hv.
    pose proof (get_from_mapping self environ key _ Hb1 Hb2 Hv eq_refl) as E.
    unfold get_int, get_int_required, get_required. by rewrite E.
Qed.

Lemma get_number_from_mapping_witness :
  get_int (py := plain_builtins) (mkConfig {[ "workers" := VInt 4 ]}) ∅
    "workers" VNone = Ok (VInt 4) ∧
  get_int (py := plain_builtins) (mkConfig {[ "verbose" := VBool true ]}) ∅
    "verbose" VNone = Ok (VInt 1).
Proof.
  split.
  - refine (proj1 (proj1 (get_number_from_mapping (py := plain_builtins)
              (mkConfig {[ "workers" := VInt 4 ]}) ∅ "workers" VNone _ _)
              4%Z _ _));
      [left; reflexivity | left; reflexivity | reflexivity | discriminate].
  - refine (proj1 (proj2 (proj2 (get_number_from_mapping (py := plain_builtins)
              (mkConfig {[ "verbose" := VBool true ]}) ∅ "verbose" VNone _ _))
              _));
      [left; reflexivity | left; reflexivity | reflexivity].
Defined.

(** ** What [int] rejects *)

Lemma all_space_no_other (s : string) :
  any_char (λ c, negb (int_char c)) s = true → all_space s = false.
Proof.
  induction s as [|c s IH]; simpl; [done|].
  intros H. apply andb_false_iff.
  apply orb_true_iff in H as [Hc|Hs]; [left|right; auto].
  unfold int_char in Hc. destruct (is_space c); [|done].
  by rewrite orb_true_r in Hc.
Qed.

Lemma int_digits_other_char (s : string) (acc : Z) (n : nat) (prev : bool) :
  any_char (λ c, negb (int_char c)) s = true →
  int_digits acc n prev s = None.
Proof.
  revert acc n prev. induction s as [|c s IH]; intros acc n prev; simpl; [done|].
  unfold int_char at 1.
  destruct (is_digit c); simpl; [by apply IH|].
  destruct (Ascii.eqb c "_") eqn:Eu.
  { rewrite !orb_true_r. simpl. intros Hs. destruct prev; [by apply IH|done]. }
  destruct (is_space c) eqn:Es; simpl; [|done].
  intros Hs. by rewrite all_space_no_other, andb_false_r.
Qed.

Lemma lstrip_other_char (s : string) :
  any_char (λ c, negb (int_char c)) s = true →
  any_char (λ c, negb (int_char c)) (lstrip s) = true.
Proof.
  induction s as [|c s IH]; simpl; [done|].
  destruct (is_space c) eqn:Es; [|done].
  unfold int_char at 1. rewrite Es, orb_true_r. simpl. apply IH.
Qed.

Lemma int_of_str_other_char (lim : nat) (s : string) :
  any_char (λ c, negb (int_char c)) s = true →
  int_of_str lim s = Raise ValueError.
Proof.
  intros Hs. apply lstrip_other_char in Hs. unfold int_of_str.
  destruct (lstrip s) as [|c r]; [done|].
  assert (Ascii.eqb c "+" || Ascii.eqb c "-" = true →
          any_char (λ c, negb (int_char c)) r = true) as Hsign.
  { intros Hc. simpl in Hs. unfold int_char at 1 in Hs.
    apply orb_true_iff in Hc as [Hc|Hc]; rewrite Hc, ?orb_true_r in Hs;
      simpl in Hs; done. }
  destruct c as [[] [] [] [] [] [] [] []];
    first [ by rewrite (int_digits_other_char r) by by apply Hsign
          | by rewrite int_digits_other_char ].
Qed.

(** X20: a string resolved for the key that has a character other than
    a digit, white space, a sign or an underscore makes [get_int] and
    [get_int_required] raise [ValueError]; the default is not used as a
    fallback. *)
Theorem get_int_rejects_other_characters {py : Builtins} (self : Config)
    (environ : gmap string string) (key : string) (default : value)
    (s : string) :
  get self environ key VNone = VStr s →
  any_char (λ c, negb (int_char c)) s = true →
  get_int self environ key default = Raise ValueError ∧
  get_int_required self environ key = Raise ValueError.
Proof.
  intros E Hs.
  assert (truthy (VStr s) = true) as Ht.
  { apply truthy_VStr. by intros ->. }
  unfold get_int, get_int_required, get_required.
  rewrite E, Ht. simpl. by rewrite int_of_str_other_char.
Qed.

Lemma get_int_rejects_other_characters_witness :
  get_int (py := plain_builtins) (mkConfig ∅) {[ "PORT" := "80a" ]} "port"
    (VInt 80) = Raise ValueError ∧
  get_int_required (py := plain_builtins) (mkConfig {[ "port" := VStr "8.5" ]})
    ∅ "port" = Raise ValueError.
Proof.
  split.
  - refine (proj1 (get_int_rejects_other_characters (py := plain_builtins)
              (mkConfig ∅) {[ "PORT" := "80a" ]} "port" (VInt 80) "80a" _ _));
      reflexivity.
  - refine (proj2 (get_int_rejects_other_characters (py := plain_builtins)
              (mkConfig {[ "port" := VStr "8.5" ]}) ∅ "port" VNone "8.5" _ _));
      reflexivity.
Defined.



